(** * Interactive upgrade workflow of the MarkLogic Kubernetes operator

    Shallow embedding of [internal/handler/precheck_handler.go] (precheck
    runner) and of the upgrade handler, rolling upgrade handler and their
    helpers (the [handler] package part of
    [internal/controller/marklogiccluster_controller.go]).

    Modelling choices:
    - Go strings are [string]; [UpgradeState] is a string type in Go and
      stays a string here, so unknown persisted values are representable.
    - The annotation map of the cluster object is a [gmap string string];
      a missing key reads as [""] like a Go map index.
    - [time.Time] values and [metav1.Now()] are integers (a clock reading
      taken from the world); [time.Since(creation)] is the cluster's age.
    - Events are recorded by type and reason; log lines are dropped.
    - The Kubernetes API server is the committed store: [h.Update] commits
      the object's annotations and reloads the committed status into the
      in-memory object, [h.Status().Update] commits its status.
      Each API write consumes one entry of a fault schedule ([true] = the
      write fails and the store is unchanged; an empty schedule means
      every write succeeds).
    - [encoding/json.Marshal] of a report is a parameter [ToJSON] of the
      development (a Section variable), so every result holds for any
      encoder. *)

From stdpp Require Import base gmap strings list.
From Stdlib Require Import ZArith String.

Open Scope Z_scope.
Open Scope string_scope.

(* ------------------------------------------------------------------ *)
(** ** Precheck report (precheck_handler.go) *)

Record PrecheckResult := mkPrecheckResult {
  Name : string;
  Status : string;        (* "PASS", "WARN", "FAIL" *)
  Message : string;
  Details : string;
  Timestamp : Z;
  Duration : string;
  Remediation : string
}.

Record PrecheckSummary := mkPrecheckSummary {
  Total : Z;
  Passed : Z;
  Warnings : Z;
  Failed : Z;
  CanProceed : bool
}.

Record PrecheckResults := mkPrecheckResults {
  Results : list PrecheckResult;
  Summary : PrecheckSummary;
  ReportTimestamp : Z;
  ClusterRef : string
}.

(** One iteration of the [switch result.Status] counting loop:
    the counters are (passed, warnings, failed). *)
Definition tally_step (acc : Z * Z * Z) (r : PrecheckResult) : Z * Z * Z :=
  let '(p, w, f) := acc in
  if String.eqb (Status r) "PASS" then (p + 1, w, f)
  else if String.eqb (Status r) "WARN" then (p, w + 1, f)
  else if String.eqb (Status r) "FAIL" then (p, w, f + 1)
  else (p, w, f).

(** The "Calculate summary" block of [generateMockPrecheckResults]. *)
Definition calculateSummary (results : list PrecheckResult) : PrecheckSummary :=
  let total := Z.of_nat (List.length results) in
  let '(passed, warnings, failed) := fold_left tally_step results (0, 0, 0) in
  let canProceed := Z.eqb failed 0 in
  {| Total := total; Passed := passed; Warnings := warnings;
     Failed := failed; CanProceed := canProceed |}.

(** The fields of the cluster object that the precheck runner reads. *)
Record PrecheckInput := mkPrecheckInput {
  pi_name : string;
  pi_namespace : string;
  pi_image : string            (* cluster.Spec.Image *)
}.

Definition generateMockPrecheckResults (c : PrecheckInput) (skipForestCheck : bool)
    (now : Z) : PrecheckResults :=
  let results :=
    [ {| Name := "Image Change Validation"; Status := "PASS";
         Message := "New image version validated and accessible";
         Details := "Target image: " ++ pi_image c; Timestamp := now;
         Duration := "1.5s"; Remediation := "" |};
      {| Name := "Cluster Health Check"; Status := "PASS";
         Message := "All cluster nodes are healthy and responding";
         Details := ""; Timestamp := now; Duration := "2.5s"; Remediation := "" |};
      {| Name := "Database Connectivity"; Status := "PASS";
         Message := "All databases are accessible and responsive";
         Details := ""; Timestamp := now; Duration := "1.8s"; Remediation := "" |};
      (if negb skipForestCheck then
         {| Name := "Forest Health Check"; Status := "WARN";
            Message := "Some forests show minor performance degradation";
            Details := "Forests in data-node-2 showing 5% higher response times";
            Timestamp := now; Duration := "4.2s";
            Remediation := "Monitor forest performance during upgrade" |}
       else
         {| Name := "Forest Health Check"; Status := "PASS";
            Message := "Forest health check skipped per annotation";
            Details := ""; Timestamp := now; Duration := "0s"; Remediation := "" |});
      {| Name := "Resource Availability"; Status := "PASS";
         Message := "Sufficient CPU and memory available for upgrade";
         Details := "CPU: 65% used, Memory: 70% used, Storage: 45% used";
         Timestamp := now; Duration := "1.2s"; Remediation := "" |};
      {| Name := "Backup Status"; Status := "WARN";
         Message := "Latest backup is 25 hours old";
         Details := "Last successful backup: 2024-01-15 10:30:00 UTC";
         Timestamp := now; Duration := "0.8s";
         Remediation := "Consider creating a fresh backup before proceeding" |};
      {| Name := "License Validation"; Status := "PASS";
         Message := "MarkLogic license is valid and has sufficient capacity";
         Details := ""; Timestamp := now; Duration := "0.5s"; Remediation := "" |};
      {| Name := "Network Connectivity"; Status := "PASS";
         Message := "All inter-node network connections are healthy";
         Details := ""; Timestamp := now; Duration := "3.1s"; Remediation := "" |} ] in
  {| Results := results;
     Summary := calculateSummary results;
     ReportTimestamp := now;
     ClusterRef := pi_namespace c ++ "/" ++ pi_name c |}.

(** Annotation keys (constants of the upgrade handler). *)
Definition AnnotationTriggerUpgrade := "marklogic.com/trigger-upgrade".
Definition AnnotationProceedUpgrade := "marklogic.com/proceed-with-upgrade".
Definition AnnotationCancelUpgrade := "marklogic.com/cancel-upgrade".
Definition AnnotationUpgradeState := "marklogic.com/upgrade-state".
Definition AnnotationPrecheckResults := "marklogic.com/precheck-results".
Definition AnnotationSkipForestCheck := "marklogic.com/skip-forest-check".

(** Go map index: a missing key reads as the zero value [""]. *)
Definition ann_get (m : gmap string string) (k : string) : string :=
  default "" (m !! k).

(** [CheckPrecheckStatus]: (completed, results, err); the pointer result
    is an [option], [None] standing for Go's [nil]. *)
Definition CheckPrecheckStatus (c : PrecheckInput) (annotations : gmap string string)
    (now : Z) : bool * option PrecheckResults * option string :=
  let skipForestCheck := String.eqb (ann_get annotations AnnotationSkipForestCheck) "true" in
  let results := generateMockPrecheckResults c skipForestCheck now in
  (true, Some results, None).

(* ------------------------------------------------------------------ *)
(** ** Cluster object, API server and the handler monad *)

(** [UpgradeState] constants. [UpgradeStatePrecheck] and
    [UpgradeStateWaitingApproval] are aliases of the same strings in Go. *)
Definition UpgradeStateIdle := "Idle".
Definition UpgradeStatePrecheckStart := "PrecheckStarted".
Definition UpgradeStatePrecheckDone := "PrecheckCompleted".
Definition UpgradeStateWaitingUser := "WaitingForUserApproval".
Definition UpgradeStateInProgress := "UpgradeInProgress".
Definition UpgradeStateCompleted := "UpgradeCompleted".
Definition UpgradeStateFailed := "UpgradeFailed".
Definition UpgradeStateCancelled := "UpgradeCancelled".

(** [metav1.Condition]; the status is the string "True"/"False". *)
Record Condition := mkCondition {
  CondType : string;
  CondStatus : string;
  CondReason : string;
  CondMessage : string;
  CondLastTransitionTime : Z
}.

Record ClusterStatus := mkClusterStatus {
  CurrentImage : string;
  UpgradePaused : bool;
  UpgradeState : string;
  LastUpgradeTime : option Z;
  Conditions : list Condition
}.

(** A member group of the cluster spec; [Replicas] is the value behind
    the [*int32] that [checkStatefulSetUpgradeStatus] dereferences. *)
Record MarkLogicGroup := mkGroup {
  GroupName : string;
  Replicas : Z
}.

Record MarklogicCluster := mkCluster {
  ClName : string;
  ClNamespace : string;
  SpecImage : string;
  MarkLogicGroups : list MarkLogicGroup;
  Annotations : gmap string string;
  ClStatus : ClusterStatus;
  Age : Z                      (* time.Since(CreationTimestamp), seconds *)
}.

Definition precheck_input (c : MarklogicCluster) : PrecheckInput :=
  {| pi_name := ClName c; pi_namespace := ClNamespace c; pi_image := SpecImage c |}.

Inductive EventType := Normal | Warning.

Record Event := mkEvent { EvType : EventType; EvReason : string }.

(** [ctrl.Result]; [RequeueAfter] in seconds, 0 = no requeue. *)
Record Result := mkResult { Requeue : bool; RequeueAfter : Z }.

Definition Result0 : Result := {| Requeue := false; RequeueAfter := 0 |}.
Definition requeueAfter (s : Z) : Result := {| Requeue := false; RequeueAfter := s |}.

(** The world one reconcile call runs in: the in-memory cluster object the
    handler mutates, the committed object on the API server (annotations
    and status), the recorded events, the fault schedule of API writes,
    the StatefulSets' readyReplicas keyed by (namespace, name), and the
    clock. *)
Record World := mkWorld {
  w_cluster : MarklogicCluster;
  w_ann : gmap string string;
  w_status : ClusterStatus;
  w_events : list Event;
  w_faults : list bool;
  w_sts : gmap (string * string) Z;
  w_now : Z
}.

(** The world at the start of a reconcile call: the cluster object is
    read from the committed store. *)
Definition start_world (c : MarklogicCluster) (sts : gmap (string * string) Z)
    (now : Z) (faults : list bool) : World :=
  {| w_cluster := c; w_ann := Annotations c; w_status := ClStatus c;
     w_events := []; w_faults := faults; w_sts := sts; w_now := now |}.

Definition M (A : Type) := World -> A * World.

Definition retM {A} (x : A) : M A := fun w => (x, w).
Definition bindM {A B} (m : M A) (f : A -> M B) : M B :=
  fun w => let '(x, w') := m w in f x w'.

Global Instance M_ret : MRet M := @retM.
Global Instance M_bind : MBind M := fun A B f m => bindM m f.

Notation "'do' x <- m ; k" := (bindM m (fun x => k))
  (at level 200, x name, m at level 100, k at level 200).

(** Binding a pair result, Go's [a, err := f()]. *)
Notation "'let2' ( a , b ) <- m ; k" :=
  (bindM m (fun r => let '(a, b) := r in k))
  (at level 200, a name, b name, m at level 100, k at level 200).

Definition get_cluster : M MarklogicCluster := fun w => (w_cluster w, w).
Definition get_now : M Z := fun w => (w_now w, w).

Definition put_cluster (c : MarklogicCluster) : M unit := fun w =>
  (tt, {| w_cluster := c; w_ann := w_ann w; w_status := w_status w;
          w_events := w_events w; w_faults := w_faults w; w_sts := w_sts w;
          w_now := w_now w |}).

(** [Recorder.Event]. *)
Definition emit (t : EventType) (reason : string) : M unit := fun w =>
  (tt, {| w_cluster := w_cluster w; w_ann := w_ann w; w_status := w_status w;
          w_events := w_events w ++ [mkEvent t reason]; w_faults := w_faults w;
          w_sts := w_sts w; w_now := w_now w |}).

Definition with_annotations (c : MarklogicCluster) (a : gmap string string) : MarklogicCluster :=
  {| ClName := ClName c; ClNamespace := ClNamespace c; SpecImage := SpecImage c;
     MarkLogicGroups := MarkLogicGroups c; Annotations := a; ClStatus := ClStatus c;
     Age := Age c |}.

Definition with_status (c : MarklogicCluster) (s : ClusterStatus) : MarklogicCluster :=
  {| ClName := ClName c; ClNamespace := ClNamespace c; SpecImage := SpecImage c;
     MarkLogicGroups := MarkLogicGroups c; Annotations := Annotations c; ClStatus := s;
     Age := Age c |}.

Definition next_fault (w : World) : bool * list bool :=
  match w_faults w with
  | [] => (false, [])
  | b :: bs => (b, bs)
  end.

(** [h.Update(ctx, cluster)]: commits the object's annotations.  The
    status is a subresource, so the API server ignores the object's
    status in this write; on success controller-runtime decodes the
    server's reply into [cluster], which puts the committed status back
    into the in-memory object (status changes made before the call are
    lost).  On failure the object is left as it was. *)
Definition Update : M (option string) := fun w =>
  let '(fail, rest) := next_fault w in
  if fail then
    (Some "update failed",
     {| w_cluster := w_cluster w; w_ann := w_ann w; w_status := w_status w;
        w_events := w_events w; w_faults := rest; w_sts := w_sts w; w_now := w_now w |})
  else
    (None,
     {| w_cluster := with_status (w_cluster w) (w_status w);
        w_ann := Annotations (w_cluster w);
        w_status := w_status w; w_events := w_events w; w_faults := rest;
        w_sts := w_sts w; w_now := w_now w |}).

(** [h.Status().Update(ctx, cluster)]: commits the object's status; the
    rest of the object is ignored by the status subresource, and on
    success the server's reply (committed annotations, the new status) is
    decoded into [cluster]. *)
Definition StatusUpdate : M (option string) := fun w =>
  let '(fail, rest) := next_fault w in
  if fail then
    (Some "status update failed",
     {| w_cluster := w_cluster w; w_ann := w_ann w; w_status := w_status w;
        w_events := w_events w; w_faults := rest; w_sts := w_sts w; w_now := w_now w |})
  else
    (None,
     {| w_cluster := with_annotations (w_cluster w) (w_ann w); w_ann := w_ann w;
        w_status := ClStatus (w_cluster w); w_events := w_events w; w_faults := rest;
        w_sts := w_sts w; w_now := w_now w |}).

(** [r.Get(ctx, key, &sts)] for a StatefulSet: its readyReplicas, or
    [None] when the Get fails (not found). *)
Definition get_statefulset (ns name : string) : M (option Z) := fun w =>
  (w_sts w !! (ns, name), w).

(* ------------------------------------------------------------------ *)
(** ** Rolling upgrade handler *)

Definition is_true_str (s : string) : bool := String.eqb s "true".

(** [performRollingUpgrade]: five progress events (the sleeps are not
    observable); never fails. *)
Definition performRollingUpgrade : M (option string) :=
  emit Normal "UpgradeProgress";; emit Normal "UpgradeProgress";;
  emit Normal "UpgradeProgress";; emit Normal "UpgradeProgress";;
  emit Normal "UpgradeProgress";;
  mret None.

Definition StartRollingUpgrade : M (option string) :=
  emit Normal "RollingUpgradeStarted";;
  performRollingUpgrade.

(** [performClusterHealthCheck]: five health-check events, then always
    healthy. *)
Definition performClusterHealthCheck : M (bool * option string) :=
  emit Normal "HealthCheck";; emit Normal "HealthCheck";;
  emit Normal "HealthCheck";; emit Normal "HealthCheck";;
  emit Normal "HealthCheck";;
  emit Normal "HealthCheckPassed";;
  mret (true, None).

Definition checkStatefulSetUpgradeStatus (c : MarklogicCluster) (g : MarkLogicGroup)
    : M (bool * option string) :=
  sts ← get_statefulset (ClNamespace c) (GroupName g);
  match sts with
  | None => mret (false, None)                     (* StatefulSet not found *)
  | Some readyReplicas =>
      if Z.eqb readyReplicas (Replicas g) then mret (true, None) else mret (false, None)
  end.

(** The [for _, group := range cluster.Spec.MarkLogicGroups] loop of
    [checkUpgradeProgress]: [Some e] is the early [return false, err]. *)
Fixpoint checkGroups (c : MarklogicCluster) (gs : list MarkLogicGroup) (allUpdated : bool)
    : M (bool * option string) :=
  match gs with
  | [] => mret (allUpdated, None)
  | g :: gs' =>
      let2 (updated, err) <- checkStatefulSetUpgradeStatus c g;
      match err with
      | Some e => mret (false, Some e)
      | None => checkGroups c gs' (if updated then allUpdated else false)
      end
  end.

(** [checkUpgradeProgress], with the final cluster health probe passed as
    an argument; the code calls it with [performClusterHealthCheck]. *)
Definition checkUpgradeProgress_with (probe : M (bool * option string))
    (c : MarklogicCluster) : M (bool * option string) :=
  let2 (allUpdated, err) <- checkGroups c (MarkLogicGroups c) true;
  match err with
  | Some e => mret (false, Some e)
  | None =>
      if allUpdated then
        let2 (healthy, err2) <- probe;
        match err2 with
        | Some e => mret (false, Some e)
        | None => if negb healthy then mret (false, None) else mret (true, None)
        end
      else mret (false, None)
  end.

Definition checkUpgradeProgress (c : MarklogicCluster) : M (bool * option string) :=
  checkUpgradeProgress_with performClusterHealthCheck c.

Definition CheckUpgradeStatus_with (probe : M (bool * option string)) : M (bool * option string) :=
  c ← get_cluster;
  let2 (completed, err) <- checkUpgradeProgress_with probe c;
  match err with
  | Some e => mret (false, Some e)
  | None =>
      (if completed then emit Normal "RollingUpgradeCompleted" else mret tt);;
      mret (completed, None)
  end.

Definition CheckUpgradeStatus : M (bool * option string) :=
  CheckUpgradeStatus_with performClusterHealthCheck.

(* ------------------------------------------------------------------ *)
(** ** Upgrade handler (the state machine) *)

(** [updateCondition]: replace the first condition of the same type, or
    append. *)
Fixpoint updateCondition (conditions : list Condition) (newCondition : Condition)
    : list Condition :=
  match conditions with
  | [] => [newCondition]
  | cd :: rest =>
      if String.eqb (CondType cd) (CondType newCondition) then newCondition :: rest
      else cd :: updateCondition rest newCondition
  end.

Definition detectImageChanges (c : MarklogicCluster) : bool :=
  let currentImage := CurrentImage (ClStatus c) in
  let desiredImage := SpecImage c in
  if String.eqb currentImage "" then false
  else negb (String.eqb currentImage desiredImage).

(** [isClusterDeployed]; both [time.Since] readings are the cluster's
    [Age], 5 minutes = 300 s. *)
Definition isClusterDeployed (c : MarklogicCluster) : bool :=
  if negb (String.eqb (CurrentImage (ClStatus c)) "") then true
  else if Z.ltb (Age c) 300 then false
  else if existsb (fun cd =>
            (String.eqb (CondType cd) "Ready" && String.eqb (CondStatus cd) "True")
            || (String.eqb (CondType cd) "Deployed" && String.eqb (CondStatus cd) "True"))
          (Conditions (ClStatus c)) then true
  else Z.ltb 300 (Age c).

Definition set_current_image (s : ClusterStatus) (img : string) : ClusterStatus :=
  {| CurrentImage := img; UpgradePaused := UpgradePaused s; UpgradeState := UpgradeState s;
     LastUpgradeTime := LastUpgradeTime s; Conditions := Conditions s |}.

(** [updateStatusAfterDeployment] and [updateCurrentImages] (same body). *)
Definition updateStatusAfterDeployment : M (option string) :=
  do c <- get_cluster;
  do _ <- put_cluster (with_status c (set_current_image (ClStatus c) (SpecImage c)));
  StatusUpdate.

Definition updateCurrentImages : M (option string) := updateStatusAfterDeployment.

Definition StartPrechecks : M (option string) :=
  do _ <- emit Normal "PrecheckStarted";
  retM None.

Definition is_terminal (state : string) : bool :=
  String.eqb state UpgradeStateCompleted || String.eqb state UpgradeStateFailed
  || String.eqb state UpgradeStateCancelled.

Section UpgradeHandler.

(** [results.ToJSON()]: the JSON text and the marshalling error. *)
Variable ToJSON : PrecheckResults -> string * option string.

Definition updateUpgradeStateWithResults (state : string) (results : option PrecheckResults)
    : M (Result * option string) :=
  do c <- get_cluster;
  do now <- get_now;
  let ann0 := <[AnnotationUpgradeState := state]> (Annotations c) in
  let annotations :=
    match results with
    | Some r =>
        let '(resultsJson, err) := ToJSON r in
        match err with
        | Some _ => ann0                                (* logged only *)
        | None => <[AnnotationPrecheckResults := resultsJson]> ann0
        end
    | None => ann0
    end in
  let st := ClStatus c in
  let terminal := is_terminal state in
  let condition :=
    {| CondType := "UpgradeInProgress";
       CondStatus := if terminal then "False" else "True";
       CondReason := state;
       CondMessage := "Upgrade workflow in state: " ++ state;
       CondLastTransitionTime := now |} in
  let st' :=
    {| CurrentImage := CurrentImage st;
       UpgradePaused := String.eqb state UpgradeStateWaitingUser;
       UpgradeState := state;
       LastUpgradeTime :=
         if terminal && String.eqb state UpgradeStateCompleted then Some now
         else LastUpgradeTime st;
       Conditions := updateCondition (Conditions st) condition |} in
  do _ <- put_cluster (with_status (with_annotations c annotations) st');
  do e1 <- Update;
  match e1 with
  | Some e => retM (Result0, Some e)
  | None =>
      do e2 <- StatusUpdate;
      match e2 with
      | Some e => retM (Result0, Some e)
      | None => retM (Result0, None)
      end
  end.

Definition updateUpgradeState (state : string) : M (Result * option string) :=
  updateUpgradeStateWithResults state None.

Definition cleanupUpgradeAnnotations (finalState : string) : M (Result * option string) :=
  do c <- get_cluster;
  do now <- get_now;
  let annotations :=
    delete AnnotationCancelUpgrade
      (delete AnnotationProceedUpgrade
         (delete AnnotationTriggerUpgrade
            (<[AnnotationUpgradeState := finalState]> (Annotations c)))) in
  let st := ClStatus c in
  let condition :=
    {| CondType := "UpgradeInProgress";
       CondStatus := "False";
       CondReason := finalState;
       CondMessage := "Upgrade workflow completed with state: " ++ finalState;
       CondLastTransitionTime := now |} in
  let st' :=
    {| CurrentImage := CurrentImage st;
       UpgradePaused := false;
       UpgradeState := finalState;
       LastUpgradeTime :=
         if String.eqb finalState UpgradeStateCompleted then Some now else LastUpgradeTime st;
       Conditions := updateCondition (Conditions st) condition |} in
  do _ <- put_cluster (with_status (with_annotations c annotations) st');
  do e1 <- Update;
  match e1 with
  | Some e => retM (Result0, Some e)
  | None =>
      do e2 <- StatusUpdate;
      match e2 with
      | Some e => retM (Result0, Some e)
      | None => retM (Result0, None)
      end
  end.

Definition handleIdleState (annotations : gmap string string) : M (Result * option string) :=
  if is_true_str (ann_get annotations AnnotationTriggerUpgrade) then
    do err <- StartPrechecks;
    match err with
    | Some _ =>
        do _ <- emit Warning "PrecheckFailed";
        updateUpgradeState UpgradeStateFailed
    | None =>
        do _ <- emit Normal "PrecheckStarted";
        updateUpgradeState UpgradeStatePrecheckStart
    end
  else retM (Result0, None).

Definition handlePrecheckStartState (annotations : gmap string string)
    : M (Result * option string) :=
  do c <- get_cluster;
  do now <- get_now;
  let '(completed, results, err) :=
    CheckPrecheckStatus (precheck_input c) (Annotations c) now in
  match err with
  | Some _ =>
      do _ <- emit Warning "PrecheckError";
      updateUpgradeState UpgradeStateFailed
  | None =>
      if negb completed then retM (requeueAfter 120, None)   (* 2 minutes *)
      else
        do _ <- emit Normal "PrecheckCompleted";
        updateUpgradeStateWithResults UpgradeStatePrecheckDone results
  end.

Definition handlePrecheckDoneState (annotations : gmap string string)
    : M (Result * option string) :=
  do _ <- emit Normal "AwaitingApproval";
  updateUpgradeState UpgradeStateWaitingUser.

Definition handleWaitingUserState (annotations : gmap string string)
    : M (Result * option string) :=
  if is_true_str (ann_get annotations AnnotationProceedUpgrade) then
    do _ <- emit Normal "UpgradeApproved";
    do err <- StartRollingUpgrade;
    match err with
    | Some _ =>
        do _ <- emit Warning "UpgradeFailed";
        updateUpgradeState UpgradeStateFailed
    | None => updateUpgradeState UpgradeStateInProgress
    end
  else retM (requeueAfter 300, None).                     (* 5 minutes *)

Definition handleInProgressState_with (probe : M (bool * option string))
    (annotations : gmap string string) : M (Result * option string) :=
  let2 (completed, err) <- CheckUpgradeStatus_with probe;
  match err with
  | Some _ =>
      do _ <- emit Warning "UpgradeError";
      updateUpgradeState UpgradeStateFailed
  | None =>
      if negb completed then retM (requeueAfter 120, None)   (* 2 minutes *)
      else
        do _ <- emit Normal "UpgradeCompleted";
        do _ <- updateCurrentImages;          (* error ignored *)
        cleanupUpgradeAnnotations UpgradeStateCompleted
  end.

Definition handleInProgressState : gmap string string -> M (Result * option string) :=
  handleInProgressState_with performClusterHealthCheck.

Definition handleCancellation (annotations : gmap string string)
    : M (Result * option string) :=
  let currentState := ann_get annotations AnnotationUpgradeState in
  if String.eqb currentState UpgradeStateInProgress then
    do _ <- emit Warning "CancellationDenied";
    retM (Result0, None)
  else
    do _ <- emit Normal "UpgradeCancelled";
    cleanupUpgradeAnnotations UpgradeStateCancelled.

(** The [switch currentState] of [HandleUpgradeWorkflow]. *)
Definition dispatch (currentState : string) (annotations : gmap string string)
    : M (Result * option string) :=
  if String.eqb currentState UpgradeStateIdle then handleIdleState annotations
  else if String.eqb currentState UpgradeStatePrecheckStart then
    handlePrecheckStartState annotations
  else if String.eqb currentState UpgradeStatePrecheckDone then
    handlePrecheckDoneState annotations
  else if String.eqb currentState UpgradeStateWaitingUser then
    handleWaitingUserState annotations
  else if String.eqb currentState UpgradeStateInProgress then
    handleInProgressState annotations
  else if is_terminal currentState then
    cleanupUpgradeAnnotations UpgradeStateIdle
  else
    updateUpgradeState UpgradeStateIdle.                    (* unknown state *)

Definition HandleUpgradeWorkflow : M (Result * option string) :=
  do c <- get_cluster;
  let annotations := Annotations c in
  let currentState :=
    let s := ann_get annotations AnnotationUpgradeState in
    if String.eqb s "" then UpgradeStateIdle else s in
  if String.eqb currentState UpgradeStateIdle && negb (isClusterDeployed c) then
    (* new cluster: record the current image, no upgrade *)
    do err <- updateStatusAfterDeployment;
    match err with
    | Some e => retM (Result0, Some e)
    | None => retM (Result0, None)
    end
  else
    (* image drift on a deployed idle cluster sets the trigger *)
    let2 (err, annotations) <-
      (if String.eqb currentState UpgradeStateIdle && isClusterDeployed c
          && detectImageChanges c then
         let a := <[AnnotationTriggerUpgrade := "true"]> annotations in
         do _ <- put_cluster (with_annotations c a);
         do err <- Update;
         retM (err, a)
       else retM (None, annotations));
    match err with
    | Some e => retM (Result0, Some e)
    | None =>
        if String.eqb currentState UpgradeStateIdle
           && negb (is_true_str (ann_get annotations AnnotationTriggerUpgrade)) then
          retM (Result0, None)
        else if is_true_str (ann_get annotations AnnotationCancelUpgrade) then
          handleCancellation annotations
        else dispatch currentState annotations
    end.

End UpgradeHandler.

(* ------------------------------------------------------------------ *)
(** ** The controller's [Reconcile] *)

(** [MarklogicClusterReconciler.Reconcile] after the cluster object has
    been fetched ([k8sutil.CreateClusterContext], whose not-found and
    error exits are not modelled): the fetched object is the world's
    in-memory cluster, which [HandleUpgradeWorkflow] mutates in place and
    which is read again afterwards.  The normal reconciliation
    [cc.ReconsileMarklogicClusterHandler] lives in [k8sutil], outside this
    development, and is a parameter. *)
Section Reconciler.

Variable ToJSON : PrecheckResults -> string * option string.
Variable ReconsileMarklogicClusterHandler : M (Result * option string).

Definition Reconcile : M (Result * option string) :=
  let2 (upgradeResult, err) <- HandleUpgradeWorkflow ToJSON;
  match err with
  | Some e => retM (Result0, Some e)
  | None =>
      if Requeue upgradeResult || Z.ltb 0 (RequeueAfter upgradeResult) then
        retM (upgradeResult, None)                  (* upgrade workflow active *)
      else
        do c <- get_cluster;
        let upgradeState := ann_get (Annotations c) AnnotationUpgradeState in
        if negb (String.eqb upgradeState "") && negb (String.eqb upgradeState UpgradeStateIdle)
           && negb (String.eqb upgradeState UpgradeStateCompleted)
           && negb (String.eqb upgradeState UpgradeStateFailed)
           && negb (String.eqb upgradeState UpgradeStateCancelled) then
          retM (Result0, None)                      (* skip during upgrade states *)
        else
          let2 (result, err) <- ReconsileMarklogicClusterHandler;
          match err with
          | Some e => retM (Result0, Some e)
          | None => retM (result, None)
          end
  end.

End Reconciler.

(* ------------------------------------------------------------------ *)
(** ** Specification-side helpers *)

(** A member group has converged: its StatefulSet exists and its
    readyReplicas equals the desired replicas. *)
Definition group_converged (w : World) (c : MarklogicCluster) (g : MarkLogicGroup) : bool :=
  match w_sts w !! (ClNamespace c, GroupName g) with
  | Some ready => Z.eqb ready (Replicas g)
  | None => false
  end.

Definition all_converged (w : World) (c : MarklogicCluster) : bool :=
  forallb (group_converged w c) (MarkLogicGroups c).

(** Conditions of the same type as [n]. *)
Definition same_type (n : Condition) (cd : Condition) : bool :=
  String.eqb (CondType cd) (CondType n).

(** The persisted state reads as Idle: missing/empty or "Idle". *)
Definition idle_state (a : gmap string string) : Prop :=
  ann_get a AnnotationUpgradeState = "" \/ ann_get a AnnotationUpgradeState = UpgradeStateIdle.

(** A state in which [Reconcile] skips the normal reconciliation. *)
Definition upgrade_active (s : string) : bool :=
  negb (String.eqb s "") && negb (String.eqb s UpgradeStateIdle) && negb (is_terminal s).

(** The annotation keys the upgrade workflow owns. *)
Definition is_workflow_key (k : string) : bool :=
  String.eqb k AnnotationUpgradeState || String.eqb k AnnotationTriggerUpgrade
  || String.eqb k AnnotationProceedUpgrade || String.eqb k AnnotationCancelUpgrade
  || String.eqb k AnnotationPrecheckResults.

Definition with_events (w : World) (evs : list Event) : World :=
  {| w_cluster := w_cluster w; w_ann := w_ann w; w_status := w_status w;
     w_events := w_events w ++ evs; w_faults := w_faults w; w_sts := w_sts w;
     w_now := w_now w |}.


(** Every run of [m], from any world, returns a value satisfying [Q]. *)
Definition result_satisfies {A} (Q : A -> Prop) (m : M A) : Prop :=
  forall w, Q (fst (m w)).

(** The result shapes [Reconcile] distinguishes. *)
Definition requeue_ok (r : Result) : Prop :=
  Requeue r = false /\ (RequeueAfter r = 0 \/ RequeueAfter r = 120 \/ RequeueAfter r = 300).

(** Annotation [k] reads [v0] in the committed store and in the
    in-memory object. *)
Definition frame_inv (k : string) (v0 : option string) (w : World) : Prop :=
  w_ann w !! k = v0 /\ Annotations (w_cluster w) !! k = v0.

Definition keeps_annotation (k : string) (v0 : option string) {A} (m : M A) : Prop :=
  forall w, frame_inv k v0 w -> frame_inv k v0 (snd (m w)).

(** A status the upgrade workflow may leave committed: the one it started
    from, or that one with [img] recorded as current image. *)
Definition status_ok (s0 : ClusterStatus) (img : string) (s : ClusterStatus) : Prop :=
  s = s0 \/ s = set_current_image s0 img.

(** Both the committed and the in-memory status are such, and the spec
    image is [img]. *)
Definition status_inv (s0 : ClusterStatus) (img : string) (w : World) : Prop :=
  status_ok s0 img (w_status w) /\ status_ok s0 img (ClStatus (w_cluster w))
  /\ SpecImage (w_cluster w) = img.

(** [m] preserves [status_inv]; [ends_status]: run from [status_inv], [m]
    leaves an allowed committed status (the in-memory one may differ). *)
Definition keeps_status (s0 : ClusterStatus) (img : string) {A} (m : M A) : Prop :=
  forall w, status_inv s0 img w -> status_inv s0 img (snd (m w)).

Definition ends_status (s0 : ClusterStatus) (img : string) {A} (m : M A) : Prop :=
  forall w, status_inv s0 img w -> status_ok s0 img (w_status (snd (m w))).

(** The annotations left by [cleanupUpgradeAnnotations finalState]. *)
Definition cleared_annotations (finalState : string) (a : gmap string string)
    : gmap string string :=
  delete AnnotationCancelUpgrade
    (delete AnnotationProceedUpgrade
       (delete AnnotationTriggerUpgrade (<[AnnotationUpgradeState := finalState]> a))).

Definition is_fail (r : PrecheckResult) : bool := String.eqb (Status r) "FAIL".

(** One reconcile call of the upgrade workflow on a cluster read from the
    store. *)
Definition reconcile (ToJSON : PrecheckResults -> string * option string)
    (c : MarklogicCluster) (sts : gmap (string * string) Z) (now : Z)
    (faults : list bool) : (Result * option string) * World :=
  HandleUpgradeWorkflow ToJSON (start_world c sts now faults).

(** A sample report encoder, used to build concrete inputs: it renders
    the result names and statuses and the canProceed verdict. *)
Definition dquote : string := String (Ascii.ascii_of_nat 34) EmptyString.
Definition jstr (s : string) : string := dquote ++ s ++ dquote.
Definition sample_result_json (r : PrecheckResult) : string :=
  "{" ++ jstr "name" ++ ":" ++ jstr (Name r) ++ ","
  ++ jstr "status" ++ ":" ++ jstr (Status r) ++ "}".
Definition sample_ToJSON (r : PrecheckResults) : string * option string :=
  ("{" ++ jstr "results" ++ ":[" ++ String.concat "," (map sample_result_json (Results r))
   ++ "]," ++ jstr "summary" ++ ":{" ++ jstr "canProceed" ++ ":"
   ++ (if CanProceed (Summary r) then "true" else "false") ++ "}}", None).

(** A report with one failing check. *)
Definition failing_results : list PrecheckResult :=
  [ {| Name := "Cluster Health Check"; Status := "FAIL";
       Message := "Node ml-2 is not responding"; Details := ""; Timestamp := 0;
       Duration := "2.5s"; Remediation := "" |} ].
Definition failing_report : PrecheckResults :=
  {| Results := failing_results; Summary := calculateSummary failing_results;
     ReportTimestamp := 0; ClusterRef := "default/demo" |}.

Definition sample_status (current : string) (state : string) : ClusterStatus :=
  {| CurrentImage := current; UpgradePaused := false; UpgradeState := state;
     LastUpgradeTime := None; Conditions := [] |}.

(** A deployed cluster with one group of 3 replicas, upgraded from
    11.3.0 to 11.4.0, with the given annotations. *)
Definition sample_cluster (annotations : gmap string string) (state : string) : MarklogicCluster :=
  {| ClName := "demo"; ClNamespace := "default"; SpecImage := "marklogicdb/marklogic-db:11.4.0";
     MarkLogicGroups := [mkGroup "node" 3]; Annotations := annotations;
     ClStatus := sample_status "marklogicdb/marklogic-db:11.3.0" state; Age := 3600 |}.

Definition sample_sts (ready : Z) : gmap (string * string) Z := {[("default", "node") := ready]}.

(** Sample clusters for the concrete runs below. *)
Definition ex_completed_no_cancel : MarklogicCluster :=
  sample_cluster
    (<[AnnotationUpgradeState := UpgradeStateCompleted]>
       (<[AnnotationPrecheckResults := fst (sample_ToJSON failing_report)]>
          {[AnnotationProceedUpgrade := "true"]}))
    UpgradeStateCompleted.







(** A cluster created a minute ago, never deployed (no current image). *)
Definition ex_fresh : MarklogicCluster :=
  {| ClName := "demo"; ClNamespace := "default"; SpecImage := "marklogicdb/marklogic-db:11.4.0";
     MarkLogicGroups := [mkGroup "node" 3]; Annotations := ∅;
     ClStatus := sample_status "" ""; Age := 60 |}.



(** Idle, deployed, spec image equal to the current image, no trigger,
    cancel set. *)
Definition ex_idle_settled_cancel : MarklogicCluster :=
  {| ClName := "demo"; ClNamespace := "default"; SpecImage := "marklogicdb/marklogic-db:11.3.0";
     MarkLogicGroups := [mkGroup "node" 3];
     Annotations := <[AnnotationUpgradeState := UpgradeStateIdle]>
                      {[AnnotationCancelUpgrade := "true"]};
     ClStatus := sample_status "marklogicdb/marklogic-db:11.3.0" UpgradeStateIdle; Age := 3600 |}.

Definition ex_precheck_started : MarklogicCluster :=
  sample_cluster {[AnnotationUpgradeState := UpgradeStatePrecheckStart]} UpgradeStatePrecheckStart.

Definition ex_in_progress : MarklogicCluster :=
  sample_cluster {[AnnotationUpgradeState := UpgradeStateInProgress]} UpgradeStateInProgress.

Definition ex_idle_trigger : MarklogicCluster :=
  sample_cluster
    (<[AnnotationUpgradeState := UpgradeStateIdle]> {[AnnotationTriggerUpgrade := "true"]})
    UpgradeStateIdle.

Definition ex_precheck_done : MarklogicCluster :=
  sample_cluster {[AnnotationUpgradeState := UpgradeStatePrecheckDone]} UpgradeStatePrecheckDone.

Definition ex_waiting : MarklogicCluster :=
  sample_cluster {[AnnotationUpgradeState := UpgradeStateWaitingUser]} UpgradeStateWaitingUser.

(** A completed cluster carrying an annotation of its own. *)
Definition ex_labelled : MarklogicCluster :=
  sample_cluster
    (<[AnnotationUpgradeState := UpgradeStateCompleted]> {["example.com/team" := "db"]})
    UpgradeStateCompleted.

Definition sample_conditions : list Condition :=
  [mkCondition "Ready" "True" "Deployed" "cluster ready" 0;
   mkCondition "UpgradeInProgress" "True" "PrecheckStarted" "" 0].

Definition sample_condition : Condition :=
  mkCondition "UpgradeInProgress" "False" "UpgradeCompleted" "" 10.

(** Two stand-ins for the normal reconciliation. *)
Definition normal_noop : M (Result * option string) := fun w => ((Result0, None), w).
Definition normal_failing : M (Result * option string) :=
  fun w => ((requeueAfter 10, Some "reconcile failed"), w).

(* ------------------------------------------------------------------ *)
(** ** Lemmas *)

Lemma tally_step_failed (l : list PrecheckResult) (p w f : Z) :
  (fold_left tally_step l (p, w, f)).2 = f + Z.of_nat (List.length (List.filter is_fail l)).
Proof.
  revert p w f. induction l as [|r l IH]; intros p w f; cbn [fold_left List.filter].
  - cbn. lia.
  - unfold is_fail at 1; unfold tally_step at 2.
    remember (Status r) as s eqn:Hs; clear Hs.
    destruct (s =? "PASS") eqn:Hp;
    [apply String.eqb_eq in Hp; subst s; cbn -[fold_left]; rewrite IH; lia|].
    destruct (s =? "WARN") eqn:Hw;
    [apply String.eqb_eq in Hw; subst s; cbn -[fold_left]; rewrite IH; lia|].
    destruct (s =? "FAIL") eqn:Hf; cbn -[fold_left]; rewrite IH; lia.
Qed.

Lemma filter_is_fail_nil (l : list PrecheckResult) :
  List.filter is_fail l = [] <-> Forall (fun r => Status r <> "FAIL") l.
Proof.
  induction l as [|r l IH]; cbn.
  - split; auto.
  - unfold is_fail at 1. destruct (String.eqb_spec (Status r) "FAIL") as [H|H].
    + split; [discriminate|]. intros HF. inversion HF; contradiction.
    + rewrite IH. split; [intros; constructor; auto|intros HF; inversion HF; auto].
Qed.

Lemma updateUpgradeStateWithResults_result0 ToJSON state results w :
  fst (fst (updateUpgradeStateWithResults ToJSON state results w)) = Result0.
Proof.
  unfold updateUpgradeStateWithResults, bindM, get_cluster, get_now, put_cluster,
    Update, StatusUpdate, next_fault; cbn.
  destruct (w_faults w) as [|[] [|[] ?]]; reflexivity.
Qed.

Lemma cleanupUpgradeAnnotations_result0 finalState w :
  fst (fst (cleanupUpgradeAnnotations finalState w)) = Result0.
Proof.
  unfold cleanupUpgradeAnnotations, bindM, get_cluster, get_now, put_cluster,
    Update, StatusUpdate, next_fault; cbn.
  destruct (w_faults w) as [|[] [|[] ?]]; reflexivity.
Qed.

(* ------------------------------------------------------------------ *)
(** ** Precheck runner *)

(** C4: the summary computed by the precheck runner has
    canProceed = (failed == 0), and canProceed holds iff no result has
    status FAIL (so WARN results never block); the report produced by
    [generateMockPrecheckResults] carries exactly this summary of its
    own results. *)
Theorem calculateSummary_canProceed (results : list PrecheckResult)
    (c : PrecheckInput) (skipForestCheck : bool) (now : Z) :
  CanProceed (calculateSummary results) = Z.eqb (Failed (calculateSummary results)) 0 /\
  (CanProceed (calculateSummary results) = true
   <-> Forall (fun r => Status r <> "FAIL") results) /\
  Summary (generateMockPrecheckResults c skipForestCheck now)
  = calculateSummary (Results (generateMockPrecheckResults c skipForestCheck now)).
Proof.
  split; [|split].
  - unfold calculateSummary. destruct (fold_left _ _ _) as [[p w] f]. reflexivity.
  - unfold calculateSummary.
    pose proof (tally_step_failed results 0 0 0) as Hf.
    destruct (fold_left _ _ _) as [[p w] f]. cbn in Hf |- *.
    rewrite <- filter_is_fail_nil, Z.eqb_eq, Hf.
    destruct (List.filter is_fail results); cbn; split; (lia || discriminate || auto).
  - reflexivity.
Qed.

(** C10: [CheckPrecheckStatus] reports completion on every call, with no
    error and a report of exactly 8 results none of which is FAIL (so
    canProceed is true); the skip-forest-check flag changes only the
    fourth result, the forest check, from WARN to PASS; hence the
    "prechecks still in progress, requeue" branch of
    [handlePrecheckStartState] is never taken (its result never asks for
    a requeue). *)
Theorem CheckPrecheckStatus_always_complete (c : MarklogicCluster) (now : Z) :
  (exists r,
     CheckPrecheckStatus (precheck_input c) (Annotations c) now = (true, Some r, None) /\
     List.length (Results r) = 8%nat /\
     Forall (fun x => Status x <> "FAIL") (Results r) /\
     CanProceed (Summary r) = true) /\
  (forall i : nat, i <> 3%nat ->
     Results (generateMockPrecheckResults (precheck_input c) true now) !! i
     = Results (generateMockPrecheckResults (precheck_input c) false now) !! i) /\
  (Name <$> Results (generateMockPrecheckResults (precheck_input c) true now) !! 3%nat
     = Some "Forest Health Check" /\
   Status <$> Results (generateMockPrecheckResults (precheck_input c) true now) !! 3%nat
     = Some "PASS" /\
   Name <$> Results (generateMockPrecheckResults (precheck_input c) false now) !! 3%nat
     = Some "Forest Health Check" /\
   Status <$> Results (generateMockPrecheckResults (precheck_input c) false now) !! 3%nat
     = Some "WARN") /\
  (forall ToJSON annotations w,
     fst (fst (handlePrecheckStartState ToJSON annotations w)) = Result0).
Proof.
  split; [|split; [|split]].
  - unfold CheckPrecheckStatus.
    eexists; split; [reflexivity|].
    destruct (String.eqb _ "true"); cbn;
      (split; [reflexivity|split; [repeat constructor; discriminate|reflexivity]]).
  - intros i Hi. do 3 (destruct i as [|i]; [reflexivity|]).
    destruct i as [|i]; [lia|]. reflexivity.
  - repeat split.
  - intros ToJSON annotations w.
    unfold handlePrecheckStartState, CheckPrecheckStatus, bindM, get_cluster, get_now, emit.
    cbn -[updateUpgradeStateWithResults].
    apply updateUpgradeStateWithResults_result0.
Qed.

(* ------------------------------------------------------------------ *)
(** ** Symbolic evaluation of one reconcile call *)

Lemma ann_get_insert_eq (m : gmap string string) k v : ann_get (<[k:=v]> m) k = v.
Proof. unfold ann_get. rewrite lookup_insert_eq. reflexivity. Qed.


Ltac run_simpl :=
  cbn -[ann_get is_true_str insert delete lookup isClusterDeployed detectImageChanges].

Ltac unfold_monad :=
  unfold reconcile, start_world, bindM, retM, get_cluster, get_now, put_cluster,
    emit, Update, StatusUpdate, next_fault, with_annotations, with_status.

Lemma keys_distinct :
  AnnotationTriggerUpgrade <> AnnotationCancelUpgrade /\
  AnnotationTriggerUpgrade <> AnnotationUpgradeState /\
  AnnotationProceedUpgrade <> AnnotationUpgradeState /\
  AnnotationCancelUpgrade <> AnnotationUpgradeState /\
  AnnotationPrecheckResults <> AnnotationUpgradeState.
Proof. repeat split; discriminate. Qed.




(* ------------------------------------------------------------------ *)
(** ** Terminal and unknown states *)








(* ------------------------------------------------------------------ *)
(** ** Approval gate *)




(** Discharges a hypothesis of a theorem at a concrete input. *)
Ltac concrete :=
  solve [ vm_compute; reflexivity | vm_compute; discriminate
        | left; vm_compute; reflexivity | right; vm_compute; reflexivity ].

(* ------------------------------------------------------------------ *)
(** ** Image drift on an idle cluster *)




(* ------------------------------------------------------------------ *)
(** ** Cancellation *)




(* ------------------------------------------------------------------ *)
(** ** Committing a transition *)




(* ------------------------------------------------------------------ *)
(** ** Rollout status check *)

(** The group loop reads the StatefulSets only: it returns, without
    error and without touching the world, whether every group converged. *)
Lemma checkGroups_eq c gs b w :
  checkGroups c gs b w = ((b && forallb (group_converged w c) gs, None), w).
Proof.
  revert b; induction gs as [|g gs IH]; intros b; simpl; unfold mret, M_ret, retM.
  - rewrite andb_true_r. reflexivity.
  - unfold bindM, checkStatefulSetUpgradeStatus, get_statefulset, group_converged, mbind, mret, M_bind, M_ret, retM; cbn -[checkGroups].
    destruct (w_sts w !! (ClNamespace c, GroupName g)) as [r|].
    + destruct (Z.eqb r (Replicas g)); cbn -[checkGroups]; rewrite IH; [reflexivity|].
      rewrite andb_false_r. reflexivity.
    + cbn -[checkGroups]. rewrite IH. rewrite andb_false_r. reflexivity.
Qed.

(** C8: the rollout status check, for any cluster health probe: when every
    member group's StatefulSet exists with readyReplicas equal to the
    group's desired replicas, the probe runs and the check reports done
    exactly when the probe reports healthy with no error (a probe error is
    returned); otherwise the probe is not run (the world is untouched) and
    the check reports not-done without error.  In that case the
    InProgress handler requeues after 120 seconds and changes nothing, so
    polling goes on as long as a group has not converged. *)
Theorem checkUpgradeProgress_gates ToJSON probe c w :
  checkUpgradeProgress_with probe c w
  = (if all_converged w c then
       let '((healthy, err), w') := probe w in
       match err with
       | Some e => ((false, Some e), w')
       | None => ((healthy, None), w')
       end
     else ((false, None), w)) /\
  (forall annotations, all_converged w (w_cluster w) = false ->
   handleInProgressState_with ToJSON probe annotations w = ((requeueAfter 120, None), w)).
Proof.
  assert (Hc : forall c', checkUpgradeProgress_with probe c' w
    = (if all_converged w c' then
       let '((healthy, err), w') := probe w in
       match err with
       | Some e => ((false, Some e), w')
       | None => ((healthy, None), w')
       end
     else ((false, None), w))).
  { intros c'. unfold checkUpgradeProgress_with, bindM, mret, M_ret, retM. rewrite checkGroups_eq. cbn.
    unfold all_converged. destruct (forallb (group_converged w c') (MarkLogicGroups c')); cbn;
      [|reflexivity].
    destruct (probe w) as [[[|] [e|]] w']; reflexivity. }
  split; [apply Hc|].
  intros a Hn. unfold handleInProgressState_with, CheckUpgradeStatus_with, bindM, get_cluster, mbind, mret, M_bind, M_ret, retM.
  cbn. rewrite Hc, Hn. reflexivity.
Qed.

Lemma checkUpgradeProgress_gates_witness :
  handleInProgressState_with sample_ToJSON performClusterHealthCheck
    (Annotations ex_in_progress) (start_world ex_in_progress (sample_sts 1) 0 [])
  = ((requeueAfter 120, None), start_world ex_in_progress (sample_sts 1) 0 []).
Proof.
  apply (proj2 (checkUpgradeProgress_gates sample_ToJSON performClusterHealthCheck
                  ex_in_progress (start_world ex_in_progress (sample_sts 1) 0 []))).
  vm_compute. reflexivity.
Defined.

(* ------------------------------------------------------------------ *)
(** ** Further properties of the code *)

(** [updateCondition cs n]: the first condition of [n]'s type in the
    result is [n] itself; the conditions of other types are kept, in
    order; the list grows by one exactly when no condition of [n]'s type
    was present. *)
Theorem updateCondition_replaces_or_appends (cs : list Condition) (n : Condition) :
  List.find (same_type n) (updateCondition cs n) = Some n /\
  List.filter (fun cd => negb (same_type n cd)) (updateCondition cs n)
  = List.filter (fun cd => negb (same_type n cd)) cs /\
  List.length (updateCondition cs n)
  = (List.length cs + (if existsb (same_type n) cs then 0 else 1))%nat.
Proof.
  unfold same_type.
  induction cs as [|cd cs IH]; cbn [updateCondition List.find List.filter List.length existsb].
  - rewrite String.eqb_refl. auto.
  - destruct (String.eqb (CondType cd) (CondType n)) eqn:E;
      cbn [updateCondition List.find List.filter List.length existsb negb orb].
    + rewrite String.eqb_refl. cbn [negb]. auto.
    + rewrite E. cbn [negb]. destruct IH as (IH1 & IH2 & IH3).
      rewrite IH1, IH2, IH3. auto.
Qed.

(** [updateCondition] keeps the condition types pairwise distinct. *)
Theorem updateCondition_nodup (cs : list Condition) (n : Condition) :
  NoDup (List.map CondType cs) -> NoDup (List.map CondType (updateCondition cs n)).
Proof.
  induction cs as [|cd cs IH]; cbn; intros Hnd.
  - constructor; [set_solver|constructor].
  - inversion Hnd as [|? ? Hni Hnd']; subst.
    destruct (String.eqb_spec (CondType cd) (CondType n)) as [E|E]; cbn.
    + rewrite <- E. constructor; assumption.
    + constructor; [|auto].
      intros Hin. apply list_elem_of_In, in_map_iff in Hin.
      destruct Hin as [x [Hx Hin]].
      assert (Hgen : forall l, In x (updateCondition l n) -> x = n \/ In x l).
      { clear. induction l as [|y l IHl]; cbn.
        - intros [->|[]]; auto.
        - destruct (String.eqb (CondType y) (CondType n)); cbn.
          + intros [->|H]; auto.
          + intros [->|H]; auto. destruct (IHl H); auto. }
      destruct (Hgen _ Hin) as [->|Hin'].
      * congruence.
      * apply Hni. apply list_elem_of_In, in_map_iff. eauto.
Qed.

Lemma updateCondition_nodup_witness :
  NoDup (List.map CondType (updateCondition sample_conditions sample_condition)).
Proof.
  apply updateCondition_nodup. apply (bool_decide_unpack _). vm_compute. exact I.
Defined.

Ltac triple_lia :=
  match goal with
  | |- (?a, ?b, ?c) = (?d, ?e, ?f) =>
      replace d with a by lia; replace e with b by lia;
      replace f with c by lia; reflexivity
  end.

Lemma tally_step_eq (p w f : Z) (r : PrecheckResult) :
  tally_step (p, w, f) r
  = (p + (if String.eqb (Status r) "PASS" then 1 else 0),
     w + (if String.eqb (Status r) "WARN" then 1 else 0),
     f + (if String.eqb (Status r) "FAIL" then 1 else 0)).
Proof.
  unfold tally_step.
  destruct (String.eqb_spec (Status r) "PASS") as [E1|E1];
    [rewrite ?E1; cbn; triple_lia|].
  destruct (String.eqb_spec (Status r) "WARN") as [E2|E2];
    [rewrite ?E2; cbn; triple_lia|].
  destruct (String.eqb_spec (Status r) "FAIL") as [E3|E3];
    cbn; triple_lia.
Qed.

Lemma tally_fold (l : list PrecheckResult) (p w f : Z) :
  fold_left tally_step l (p, w, f)
  = (p + Z.of_nat (List.length (List.filter (fun r => String.eqb (Status r) "PASS") l)),
     w + Z.of_nat (List.length (List.filter (fun r => String.eqb (Status r) "WARN") l)),
     f + Z.of_nat (List.length (List.filter (fun r => String.eqb (Status r) "FAIL") l))).
Proof.
  revert p w f; induction l as [|r l IH]; intros p w f.
  - cbn. f_equal; [f_equal|]; lia.
  - cbn [fold_left List.filter]. rewrite tally_step_eq, IH.
    destruct (String.eqb (Status r) "PASS"), (String.eqb (Status r) "WARN"),
      (String.eqb (Status r) "FAIL"); cbn [List.length]; rewrite ?Nat2Z.inj_succ;
      triple_lia.
Qed.

(** The summary counters of the precheck runner: [Total] is the number of
    results, [Passed], [Warnings] and [Failed] count the results whose
    status is exactly "PASS", "WARN" and "FAIL" (other statuses are not
    counted), so their sum never exceeds [Total]. *)
Theorem calculateSummary_counts (results : list PrecheckResult) :
  Total (calculateSummary results) = Z.of_nat (List.length results) /\
  Passed (calculateSummary results)
  = Z.of_nat (List.length (List.filter (fun r => String.eqb (Status r) "PASS") results)) /\
  Warnings (calculateSummary results)
  = Z.of_nat (List.length (List.filter (fun r => String.eqb (Status r) "WARN") results)) /\
  Failed (calculateSummary results)
  = Z.of_nat (List.length (List.filter (fun r => String.eqb (Status r) "FAIL") results)) /\
  Passed (calculateSummary results) + Warnings (calculateSummary results)
    + Failed (calculateSummary results) <= Total (calculateSummary results).
Proof.
  unfold calculateSummary. rewrite tally_fold. cbn.
  refine (conj eq_refl (conj eq_refl (conj eq_refl (conj eq_refl _)))).
  induction results as [|r l IH]; [cbn; lia|].
  cbn [List.filter List.length].
  destruct (String.eqb_spec (Status r) "PASS") as [E1|E1];
  [rewrite ?E1; simpl; lia|].
  destruct (String.eqb_spec (Status r) "WARN") as [E2|E2];
  [rewrite ?E2; simpl; lia|].
  destruct (String.eqb_spec (Status r) "FAIL") as [E3|E3]; simpl; lia.
Qed.

(** [isClusterDeployed] on a cluster with no recorded current image: it
    holds exactly when the cluster is older than 5 minutes; the Ready and
    Deployed conditions only matter at an age of exactly 300 s. *)
Theorem isClusterDeployed_age (c : MarklogicCluster) :
  CurrentImage (ClStatus c) = "" -> Age c <> 300 ->
  isClusterDeployed c = Z.ltb 300 (Age c).
Proof.
  intros Hi Ha. unfold isClusterDeployed. rewrite Hi. cbn.
  destruct (Z.ltb_spec (Age c) 300); destruct (Z.ltb_spec 300 (Age c)); try lia;
    destruct existsb; reflexivity.
Qed.

Lemma isClusterDeployed_age_witness : isClusterDeployed ex_fresh = Z.ltb 300 (Age ex_fresh).
Proof. apply isClusterDeployed_age; concrete. Defined.

(** Every report of [generateMockPrecheckResults] names its cluster as
    namespace/name, stamps every result with the report's time, and has
    the summary 8 total, 0 failed, canProceed, with 6 passed and 2
    warnings (7 and 1 when the forest check is skipped). *)
Theorem generateMockPrecheckResults_report (c : PrecheckInput) (skip : bool) (now : Z) :
  ClusterRef (generateMockPrecheckResults c skip now) = pi_namespace c ++ "/" ++ pi_name c /\
  ReportTimestamp (generateMockPrecheckResults c skip now) = now /\
  Forall (fun r => Timestamp r = now) (Results (generateMockPrecheckResults c skip now)) /\
  Summary (generateMockPrecheckResults c skip now)
  = {| Total := 8; Passed := if skip then 7 else 6; Warnings := if skip then 1 else 2;
       Failed := 0; CanProceed := true |}.
Proof.
  destruct skip; cbn; (split; [reflexivity|split; [reflexivity|split; [repeat constructor|reflexivity]]]).
Qed.

(** On an Idle (or unset) cluster that is not yet deployed, a reconcile
    call only records the spec image as the current image: one status
    write, annotations untouched whatever they hold (trigger and cancel
    included), no event, [Result{}] and the status write's error. *)
Theorem undeployed_idle_records_image ToJSON c sts now faults :
  idle_state (Annotations c) -> isClusterDeployed c = false ->
  reconcile ToJSON c sts now faults
  = ((Result0, if hd false faults then Some "status update failed" else None),
     {| w_cluster := with_status c (set_current_image (ClStatus c) (SpecImage c));
        w_ann := Annotations c;
        w_status := if hd false faults then ClStatus c
                    else set_current_image (ClStatus c) (SpecImage c);
        w_events := []; w_faults := tl faults; w_sts := sts; w_now := now |}).
Proof.
  intros Hs Hd. unfold reconcile, HandleUpgradeWorkflow; unfold_monad; run_simpl.
  assert (Hst : (if String.eqb (ann_get (Annotations c) AnnotationUpgradeState) ""
                 then UpgradeStateIdle else ann_get (Annotations c) AnnotationUpgradeState)
                = UpgradeStateIdle).
  { destruct Hs as [H|H]; rewrite H; reflexivity. }
  rewrite Hst, Hd. run_simpl.
  unfold updateStatusAfterDeployment; unfold_monad; run_simpl.
  destruct faults as [|[|] rest]; reflexivity.
Qed.

Lemma undeployed_idle_records_image_witness :
  fst (reconcile sample_ToJSON ex_fresh (sample_sts 3) 0 [true])
  = (Result0, Some "status update failed").
Proof. rewrite undeployed_idle_records_image by concrete. reflexivity. Defined.

(** On a deployed Idle cluster with no image drift and no trigger, a
    reconcile call does nothing at all (no write, no event, whatever the
    cancel and proceed signals say) and returns [Result{}]. *)
Theorem deployed_idle_noop ToJSON c sts now faults :
  idle_state (Annotations c) -> isClusterDeployed c = true -> detectImageChanges c = false ->
  is_true_str (ann_get (Annotations c) AnnotationTriggerUpgrade) = false ->
  reconcile ToJSON c sts now faults = ((Result0, None), start_world c sts now faults).
Proof.
  intros Hs Hd Hi Ht. unfold reconcile, HandleUpgradeWorkflow; unfold_monad; run_simpl.
  assert (Hst : (if String.eqb (ann_get (Annotations c) AnnotationUpgradeState) ""
                 then UpgradeStateIdle else ann_get (Annotations c) AnnotationUpgradeState)
                = UpgradeStateIdle).
  { destruct Hs as [H|H]; rewrite H; reflexivity. }
  rewrite Hst, Hd, Hi. run_simpl. rewrite Ht. reflexivity.
Qed.

Lemma deployed_idle_noop_witness :
  fst (reconcile sample_ToJSON ex_idle_settled_cancel (sample_sts 3) 0 [true])
  = (Result0, None).
Proof. rewrite deployed_idle_noop by concrete. reflexivity. Defined.

Lemma trigger_insert_id (a : gmap string string) :
  is_true_str (ann_get a AnnotationTriggerUpgrade) = true ->
  <[AnnotationTriggerUpgrade := "true"]> a = a.
Proof.
  unfold is_true_str, ann_get. intros H. apply String.eqb_eq in H.
  apply insert_id. destruct (a !! AnnotationTriggerUpgrade); cbn in *; congruence.
Qed.

(** On a deployed Idle cluster with trigger=true and no cancel signal, a
    reconcile call whose writes succeed starts the prechecks: the state
    annotation becomes PrecheckStarted (trigger kept), with two
    PrecheckStarted events, and the committed status is left as it was;
    starting prechecks never fails. *)
Theorem idle_trigger_starts_prechecks ToJSON c sts now :
  idle_state (Annotations c) -> isClusterDeployed c = true ->
  is_true_str (ann_get (Annotations c) AnnotationTriggerUpgrade) = true ->
  is_true_str (ann_get (Annotations c) AnnotationCancelUpgrade) = false ->
  let w := snd (reconcile ToJSON c sts now []) in
  fst (reconcile ToJSON c sts now []) = (Result0, None) /\
  w_ann w = <[AnnotationUpgradeState := UpgradeStatePrecheckStart]> (Annotations c) /\
  w_status w = ClStatus c /\
  w_events w = [mkEvent Normal "PrecheckStarted"; mkEvent Normal "PrecheckStarted"].
Proof.
  intros Hs Hd Ht Hc w. subst w.
  unfold reconcile, HandleUpgradeWorkflow; unfold_monad; run_simpl.
  assert (Hst : (if String.eqb (ann_get (Annotations c) AnnotationUpgradeState) ""
                 then UpgradeStateIdle else ann_get (Annotations c) AnnotationUpgradeState)
                = UpgradeStateIdle).
  { destruct Hs as [H|H]; rewrite H; reflexivity. }
  rewrite Hst, Hd. run_simpl.
  destruct (detectImageChanges c); run_simpl;
    rewrite ?(trigger_insert_id _ Ht), Ht; run_simpl; rewrite Hc;
    unfold dispatch, handleIdleState; run_simpl; rewrite Ht;
    unfold StartPrechecks, updateUpgradeState, updateUpgradeStateWithResults;
    unfold_monad; run_simpl;
    refine (conj eq_refl (conj _ (conj eq_refl eq_refl)));
    rewrite ?(trigger_insert_id _ Ht); reflexivity.
Qed.

Lemma idle_trigger_starts_prechecks_witness :
  w_ann (snd (reconcile sample_ToJSON ex_idle_trigger (sample_sts 3) 0 []))
  = <[AnnotationUpgradeState := UpgradeStatePrecheckStart]> (Annotations ex_idle_trigger).
Proof. refine (proj1 (proj2 (idle_trigger_starts_prechecks sample_ToJSON ex_idle_trigger
                                (sample_sts 3) 0 _ _ _ _))); concrete. Defined.

(** From PrecheckStarted with no cancel signal, a reconcile call whose
    writes succeed stores the generated report (when it serialises) and
    the state annotation PrecheckCompleted, and emits PrecheckCompleted;
    the status it computes (condition, state) is dropped by the reload
    of the object write, so the committed status is left as it was. *)
Theorem precheck_start_completes ToJSON c sts now :
  ann_get (Annotations c) AnnotationUpgradeState = UpgradeStatePrecheckStart ->
  is_true_str (ann_get (Annotations c) AnnotationCancelUpgrade) = false ->
  let report := generateMockPrecheckResults (precheck_input c)
                  (String.eqb (ann_get (Annotations c) AnnotationSkipForestCheck) "true") now in
  let w := snd (reconcile ToJSON c sts now []) in
  fst (reconcile ToJSON c sts now []) = (Result0, None) /\
  w_ann w = (let a := <[AnnotationUpgradeState := UpgradeStatePrecheckDone]> (Annotations c) in
             match ToJSON report with
             | (json, None) => <[AnnotationPrecheckResults := json]> a
             | (_, Some _) => a
             end) /\
  w_status w = ClStatus c /\
  w_events w = [mkEvent Normal "PrecheckCompleted"].
Proof.
  intros HS Hc report w. subst report w.
  unfold reconcile, HandleUpgradeWorkflow; unfold_monad; run_simpl.
  rewrite HS. run_simpl. rewrite Hc.
  unfold dispatch, handlePrecheckStartState, CheckPrecheckStatus; run_simpl.
  unfold updateUpgradeStateWithResults; unfold_monad; run_simpl.
  destruct (ToJSON _) as [j [e|]]; run_simpl;
    refine (conj eq_refl (conj eq_refl (conj eq_refl eq_refl))).
Qed.

Lemma precheck_start_completes_witness :
  fst (reconcile sample_ToJSON ex_precheck_started (sample_sts 3) 0 []) = (Result0, None).
Proof. refine (proj1 (precheck_start_completes sample_ToJSON ex_precheck_started
                        (sample_sts 3) 0 _ _)); concrete. Defined.

(** From PrecheckCompleted with no cancel signal, a reconcile call whose
    writes succeed moves the state annotation to WaitingForUserApproval
    and emits AwaitingApproval; the paused flag it sets in memory is
    dropped by the reload of the object write, so the committed status is
    left as it was. *)
Theorem precheck_done_awaits_approval ToJSON c sts now :
  ann_get (Annotations c) AnnotationUpgradeState = UpgradeStatePrecheckDone ->
  is_true_str (ann_get (Annotations c) AnnotationCancelUpgrade) = false ->
  let w := snd (reconcile ToJSON c sts now []) in
  fst (reconcile ToJSON c sts now []) = (Result0, None) /\
  w_ann w = <[AnnotationUpgradeState := UpgradeStateWaitingUser]> (Annotations c) /\
  w_status w = ClStatus c /\
  w_events w = [mkEvent Normal "AwaitingApproval"].
Proof.
  intros HS Hc w. subst w.
  unfold reconcile, HandleUpgradeWorkflow; unfold_monad; run_simpl.
  rewrite HS. run_simpl. rewrite Hc.
  unfold dispatch, handlePrecheckDoneState, updateUpgradeState, updateUpgradeStateWithResults;
    unfold_monad; run_simpl.
  refine (conj eq_refl (conj eq_refl (conj eq_refl eq_refl))).
Qed.

Lemma precheck_done_awaits_approval_witness :
  fst (reconcile sample_ToJSON ex_precheck_done (sample_sts 3) 0 []) = (Result0, None).
Proof. refine (proj1 (precheck_done_awaits_approval sample_ToJSON ex_precheck_done
                        (sample_sts 3) 0 _ _)); concrete. Defined.

(** In WaitingForUserApproval with neither proceed nor cancel, a reconcile
    call asks to be requeued after 5 minutes and changes nothing. *)
Theorem waiting_without_proceed_requeues ToJSON c sts now faults :
  ann_get (Annotations c) AnnotationUpgradeState = UpgradeStateWaitingUser ->
  is_true_str (ann_get (Annotations c) AnnotationCancelUpgrade) = false ->
  is_true_str (ann_get (Annotations c) AnnotationProceedUpgrade) = false ->
  reconcile ToJSON c sts now faults = ((requeueAfter 300, None), start_world c sts now faults).
Proof.
  intros HS Hc Hp.
  unfold reconcile, HandleUpgradeWorkflow; unfold_monad; run_simpl.
  rewrite HS. run_simpl. rewrite Hc.
  unfold dispatch, handleWaitingUserState. run_simpl. rewrite Hp. reflexivity.
Qed.

Lemma waiting_without_proceed_requeues_witness :
  fst (reconcile sample_ToJSON ex_waiting (sample_sts 3) 0 [true]) = (requeueAfter 300, None).
Proof. rewrite waiting_without_proceed_requeues by concrete. reflexivity. Defined.

(** In UpgradeInProgress with every group converged and no cancel signal,
    a reconcile call completes the upgrade: the state annotation becomes
    UpgradeCompleted, the control annotations are removed and the
    completion events are recorded.  The only status change committed is
    the spec image recorded as current by [updateCurrentImages]; when that
    write fails its error is ignored and the committed status stays as it
    was, since the cleanup's object write reloads the committed status
    before its own status write. *)
Theorem in_progress_converged_completes ToJSON c sts now (b : bool) :
  ann_get (Annotations c) AnnotationUpgradeState = UpgradeStateInProgress ->
  is_true_str (ann_get (Annotations c) AnnotationCancelUpgrade) = false ->
  all_converged (start_world c sts now [b]) c = true ->
  let w := snd (reconcile ToJSON c sts now [b]) in
  fst (reconcile ToJSON c sts now [b]) = (Result0, None) /\
  w_ann w = cleared_annotations UpgradeStateCompleted (Annotations c) /\
  w_status w = (if b then ClStatus c else set_current_image (ClStatus c) (SpecImage c)) /\
  w_events w = [mkEvent Normal "HealthCheck"; mkEvent Normal "HealthCheck";
                mkEvent Normal "HealthCheck"; mkEvent Normal "HealthCheck";
                mkEvent Normal "HealthCheck"; mkEvent Normal "HealthCheckPassed";
                mkEvent Normal "RollingUpgradeCompleted"; mkEvent Normal "UpgradeCompleted"].
Proof.
  intros HS Hc Hconv w. subst w.
  unfold reconcile, HandleUpgradeWorkflow; unfold_monad; run_simpl.
  rewrite HS. run_simpl. rewrite Hc.
  unfold dispatch, handleInProgressState, handleInProgressState_with, CheckUpgradeStatus_with,
    checkUpgradeProgress_with.
  unfold_monad. unfold mbind, M_bind, mret, M_ret, retM, bindM.
  cbn -[ann_get is_true_str insert delete lookup checkGroups].
  rewrite checkGroups_eq. unfold all_converged, start_world in Hconv.
  rewrite Hconv. cbn.
  unfold updateCurrentImages, updateStatusAfterDeployment, cleanupUpgradeAnnotations;
    unfold_monad; run_simpl.
  destruct b; run_simpl;
    refine (conj eq_refl (conj eq_refl (conj eq_refl eq_refl))).
Qed.

Lemma in_progress_converged_completes_witness :
  w_status (snd (reconcile sample_ToJSON ex_in_progress (sample_sts 3) 0 [false]))
  = set_current_image (ClStatus ex_in_progress) (SpecImage ex_in_progress).
Proof. refine (proj1 (proj2 (proj2 (in_progress_converged_completes sample_ToJSON ex_in_progress
                                     (sample_sts 3) 0 false _ _ _)))); concrete. Defined.

(* ------------------------------------------------------------------ *)
(** ** Invariants of the whole workflow *)

Lemma result_satisfies_bind {A B} (Q : B -> Prop) (m : M A) (f : A -> M B) :
  (forall x, result_satisfies Q (f x)) -> result_satisfies Q (bindM m f).
Proof. intros H w. unfold bindM. destruct (m w) as [x w']. apply H. Qed.

Lemma result_satisfies_ret {A} (Q : A -> Prop) (x : A) : Q x -> result_satisfies Q (retM x).
Proof. intros H w. exact H. Qed.

Ltac result_tac :=
  repeat (cbv beta zeta;
    match goal with
    | |- result_satisfies _ (bindM _ _) => apply result_satisfies_bind; intros ?
    | |- result_satisfies _ (retM _) => apply result_satisfies_ret
    | |- result_satisfies _ (match ?x with _ => _ end) => destruct x
    | |- result_satisfies _ (if ?b then _ else _) => destruct b
    end).

(** [HandleUpgradeWorkflow] never sets [Requeue], and its [RequeueAfter]
    is always 0, 120 s or 300 s, whatever the world and the encoder; so
    the [upgradeResult.Requeue] test of [Reconcile] is never the one that
    fires. *)
Theorem HandleUpgradeWorkflow_requeue ToJSON :
  result_satisfies (fun r : Result * option string => requeue_ok (fst r)) (HandleUpgradeWorkflow ToJSON).
Proof.
  unfold HandleUpgradeWorkflow, dispatch, handleIdleState, handlePrecheckStartState,
    handlePrecheckDoneState, handleWaitingUserState, handleInProgressState,
    handleInProgressState_with, handleCancellation, updateUpgradeState,
    updateUpgradeStateWithResults, cleanupUpgradeAnnotations.
  result_tac; unfold requeue_ok; cbn; auto.
Qed.

Section Frame.
Variable k : string.
Variable v0 : option string.

Lemma keeps_bind {A B} (m : M A) (f : A -> M B) :
  keeps_annotation k v0 m -> (forall x, keeps_annotation k v0 (f x)) -> keeps_annotation k v0 (bindM m f).
Proof.
  intros Hm Hf w Hw. unfold bindM. specialize (Hm w Hw).
  destruct (m w) as [x w'] eqn:E. cbn in Hm |- *. exact (Hf x w' Hm).
Qed.

Lemma keeps_get_cluster {B} (f : MarklogicCluster -> M B) :
  (forall c, Annotations c !! k = v0 -> keeps_annotation k v0 (f c)) -> keeps_annotation k v0 (bindM get_cluster f).
Proof. intros Hf w Hw. unfold bindM, get_cluster. apply Hf; [apply Hw|exact Hw]. Qed.

Lemma keeps_put_cluster c : Annotations c !! k = v0 -> keeps_annotation k v0 (put_cluster c).
Proof. intros Hc w [Ha _]. split; assumption. Qed.

Lemma keeps_ret {A} (x : A) : keeps_annotation k v0 (retM x).
Proof. intros w Hw. exact Hw. Qed.

Lemma keeps_get_now : keeps_annotation k v0 get_now.
Proof. intros w Hw. exact Hw. Qed.

Lemma keeps_emit t r : keeps_annotation k v0 (emit t r).
Proof. intros w Hw. exact Hw. Qed.

Lemma keeps_get_statefulset ns n : keeps_annotation k v0 (get_statefulset ns n).
Proof. intros w Hw. exact Hw. Qed.

Lemma keeps_Update : keeps_annotation k v0 Update.
Proof.
  intros w [Ha Hc]. unfold Update, next_fault. destruct (w_faults w) as [|[|] bs];
    split; cbn; assumption.
Qed.

Lemma keeps_StatusUpdate : keeps_annotation k v0 StatusUpdate.
Proof.
  intros w [Ha Hc]. unfold StatusUpdate, next_fault. destruct (w_faults w) as [|[|] bs];
    split; cbn; assumption.
Qed.

Lemma keeps_checkGroups c gs b : keeps_annotation k v0 (checkGroups c gs b).
Proof. intros w Hw. rewrite checkGroups_eq. exact Hw. Qed.

End Frame.

Ltac keeps_tac :=
  repeat (cbv beta zeta;
    match goal with
    | |- keeps_annotation _ _ (bindM get_cluster _) => apply keeps_get_cluster; intros ? ?
    | |- keeps_annotation _ _ (bindM _ _) => apply keeps_bind; [|intros ?]
    | |- keeps_annotation _ _ (retM _) => apply keeps_ret
    | |- keeps_annotation _ _ get_now => apply keeps_get_now
    | |- keeps_annotation _ _ (emit _ _) => apply keeps_emit
    | |- keeps_annotation _ _ (get_statefulset _ _) => apply keeps_get_statefulset
    | |- keeps_annotation _ _ Update => apply keeps_Update
    | |- keeps_annotation _ _ StatusUpdate => apply keeps_StatusUpdate
    | |- keeps_annotation _ _ (put_cluster _) => apply keeps_put_cluster
    | |- keeps_annotation _ _ (checkGroups _ _ _) => apply keeps_checkGroups
    | |- keeps_annotation _ _ (match ?x with _ => _ end) => destruct x
    | |- keeps_annotation _ _ (if ?b then _ else _) => destruct b
    end).

(** Whatever the fault schedule and the encoder, a reconcile call of the
    upgrade workflow leaves every annotation other than the upgrade
    state, trigger, proceed, cancel and precheck-results keys as it was,
    in the committed store and in the in-memory object. *)
Theorem HandleUpgradeWorkflow_frame ToJSON c sts now faults (k : string) :
  is_workflow_key k = false ->
  w_ann (snd (reconcile ToJSON c sts now faults)) !! k = Annotations c !! k /\
  Annotations (w_cluster (snd (reconcile ToJSON c sts now faults))) !! k = Annotations c !! k.
Proof.
  intros Hk.
  unfold is_workflow_key in Hk. rewrite !Bool.orb_false_iff in Hk.
  destruct Hk as [[[[H1 H2] H3] H4] H5].
  apply String.eqb_neq in H1, H2, H3, H4, H5.
  assert (Hp : keeps_annotation k (Annotations c !! k) (HandleUpgradeWorkflow ToJSON)).
  2: exact (Hp (start_world c sts now faults) (conj eq_refl eq_refl)).
  unfold HandleUpgradeWorkflow, dispatch, handleIdleState, handlePrecheckStartState,
    handlePrecheckDoneState, handleWaitingUserState, handleInProgressState,
    handleInProgressState_with, handleCancellation, updateUpgradeState,
    updateUpgradeStateWithResults, cleanupUpgradeAnnotations, updateStatusAfterDeployment,
    updateCurrentImages, updateStatusAfterDeployment, StartPrechecks, StartRollingUpgrade, performRollingUpgrade,
    CheckUpgradeStatus_with, checkUpgradeProgress_with, performClusterHealthCheck.
  unfold mbind, M_bind, mret, M_ret.
  keeps_tac.
  all: cbn [Annotations with_status with_annotations].
  all: repeat match goal with |- context [match ?x with _ => _ end] => destruct x end.
  all: rewrite ?lookup_delete_ne, ?lookup_insert_ne by congruence; assumption.
Qed.

Lemma HandleUpgradeWorkflow_frame_witness :
  w_ann (snd (reconcile sample_ToJSON ex_labelled (sample_sts 3) 0 [false; true]))
    !! "example.com/team" = Some "db".
Proof.
  rewrite (proj1 (HandleUpgradeWorkflow_frame sample_ToJSON ex_labelled (sample_sts 3) 0
                    [false; true] "example.com/team" ltac:(vm_compute; reflexivity))).
  vm_compute. reflexivity.
Defined.

Lemma updateUpgradeStateWithResults_status ToJSON state results w :
  w_status (snd (updateUpgradeStateWithResults ToJSON state results w)) = w_status w.
Proof.
  destruct w as [c a st ev fl sts now].
  unfold updateUpgradeStateWithResults; unfold_monad; cbn.
  destruct fl as [|[|] [|[|] ?]]; reflexivity.
Qed.

Lemma cleanupUpgradeAnnotations_status finalState w :
  w_status (snd (cleanupUpgradeAnnotations finalState w)) = w_status w.
Proof.
  destruct w as [c a st ev fl sts now].
  unfold cleanupUpgradeAnnotations; unfold_monad; cbn.
  destruct fl as [|[|] [|[|] ?]]; reflexivity.
Qed.

Section StatusFrame.
Variable s0 : ClusterStatus.
Variable img : string.

Lemma ks_bind {A B} (m : M A) (f : A -> M B) :
  keeps_status s0 img m -> (forall x, keeps_status s0 img (f x)) ->
  keeps_status s0 img (bindM m f).
Proof.
  intros Hm Hf w Hw. unfold bindM. specialize (Hm w Hw).
  destruct (m w) as [x w'] eqn:E. cbn in Hm |- *. exact (Hf x w' Hm).
Qed.

Lemma es_bind {A B} (m : M A) (f : A -> M B) :
  keeps_status s0 img m -> (forall x, ends_status s0 img (f x)) ->
  ends_status s0 img (bindM m f).
Proof.
  intros Hm Hf w Hw. unfold bindM. specialize (Hm w Hw).
  destruct (m w) as [x w'] eqn:E. cbn in Hm |- *. exact (Hf x w' Hm).
Qed.

Lemma ks_get_cluster {B} (f : MarklogicCluster -> M B) :
  (forall c, status_ok s0 img (ClStatus c) -> SpecImage c = img -> keeps_status s0 img (f c)) ->
  keeps_status s0 img (bindM get_cluster f).
Proof. intros Hf w Hw. unfold bindM, get_cluster. apply Hf; [apply Hw|apply Hw|exact Hw]. Qed.

Lemma es_get_cluster {B} (f : MarklogicCluster -> M B) :
  (forall c, status_ok s0 img (ClStatus c) -> SpecImage c = img -> ends_status s0 img (f c)) ->
  ends_status s0 img (bindM get_cluster f).
Proof. intros Hf w Hw. unfold bindM, get_cluster. apply Hf; [apply Hw|apply Hw|exact Hw]. Qed.

Lemma es_of_ks {A} (m : M A) : keeps_status s0 img m -> ends_status s0 img m.
Proof. intros Hm w Hw. apply (Hm w Hw). Qed.

Lemma ks_ret {A} (x : A) : keeps_status s0 img (retM x).
Proof. intros w Hw. exact Hw. Qed.

Lemma ks_get_now : keeps_status s0 img get_now.
Proof. intros w Hw. exact Hw. Qed.

Lemma ks_emit t r : keeps_status s0 img (emit t r).
Proof. intros w Hw. exact Hw. Qed.

Lemma ks_put_cluster c :
  status_ok s0 img (ClStatus c) -> SpecImage c = img -> keeps_status s0 img (put_cluster c).
Proof. intros Hs Hi w [Hw _]. repeat split; assumption. Qed.

Lemma ks_Update : keeps_status s0 img Update.
Proof.
  intros w (Hs & Hc & Hi). unfold Update, next_fault.
  destruct (w_faults w) as [|[|] bs]; repeat split; cbn; assumption.
Qed.

Lemma ks_StatusUpdate : keeps_status s0 img StatusUpdate.
Proof.
  intros w (Hs & Hc & Hi). unfold StatusUpdate, next_fault.
  destruct (w_faults w) as [|[|] bs]; repeat split; cbn; assumption.
Qed.

Lemma ks_checkGroups c gs b : keeps_status s0 img (checkGroups c gs b).
Proof. intros w Hw. rewrite checkGroups_eq. exact Hw. Qed.

Lemma ks_updateStatusAfterDeployment : keeps_status s0 img updateStatusAfterDeployment.
Proof.
  unfold updateStatusAfterDeployment.
  apply ks_get_cluster. intros c Hs Hi.
  apply ks_bind; [|intros _; apply ks_StatusUpdate].
  apply ks_put_cluster; [|exact Hi]. cbn. rewrite Hi.
  destruct Hs as [-> | ->]; right; reflexivity.
Qed.

Lemma es_updateUpgradeStateWithResults ToJSON state results :
  ends_status s0 img (updateUpgradeStateWithResults ToJSON state results).
Proof. intros w Hw. rewrite updateUpgradeStateWithResults_status. apply Hw. Qed.

Lemma es_cleanupUpgradeAnnotations finalState :
  ends_status s0 img (cleanupUpgradeAnnotations finalState).
Proof. intros w Hw. rewrite cleanupUpgradeAnnotations_status. apply Hw. Qed.

End StatusFrame.

Ltac status_tac :=
  repeat (cbv beta zeta;
    match goal with
    | |- ends_status _ _ (bindM get_cluster _) => apply es_get_cluster; intros ? ? ?
    | |- keeps_status _ _ (bindM get_cluster _) => apply ks_get_cluster; intros ? ? ?
    | |- ends_status _ _ (updateUpgradeStateWithResults _ _ _) => apply es_updateUpgradeStateWithResults
    | |- ends_status _ _ (cleanupUpgradeAnnotations _) => apply es_cleanupUpgradeAnnotations
    | |- ends_status _ _ (bindM _ _) => apply es_bind; [|intros ?]
    | |- keeps_status _ _ (bindM _ _) => apply ks_bind; [|intros ?]
    | |- ends_status _ _ (match ?x with _ => _ end) => destruct x
    | |- ends_status _ _ (if ?b then _ else _) => destruct b
    | |- keeps_status _ _ (match ?x with _ => _ end) => destruct x
    | |- keeps_status _ _ (if ?b then _ else _) => destruct b
    | |- ends_status _ _ _ => apply es_of_ks
    | |- keeps_status _ _ (retM _) => apply ks_ret
    | |- keeps_status _ _ get_now => apply ks_get_now
    | |- keeps_status _ _ (emit _ _) => apply ks_emit
    | |- keeps_status _ _ Update => apply ks_Update
    | |- keeps_status _ _ StatusUpdate => apply ks_StatusUpdate
    | |- keeps_status _ _ updateStatusAfterDeployment => apply ks_updateStatusAfterDeployment
    | |- keeps_status _ _ (put_cluster _) => apply ks_put_cluster
    | |- keeps_status _ _ (checkGroups _ _ _) => apply ks_checkGroups
    end).

(** Whatever the fault schedule and the encoder, the status a reconcile
    call of the upgrade workflow leaves committed is the one it started
    from, or that one with the spec image recorded as current: the
    upgrade state, paused flag, conditions and last-upgrade time that the
    transitions compute are never committed, since each object write
    reloads the committed status before the status write. *)
Theorem HandleUpgradeWorkflow_status ToJSON c sts now faults :
  w_status (snd (reconcile ToJSON c sts now faults)) = ClStatus c \/
  w_status (snd (reconcile ToJSON c sts now faults))
  = set_current_image (ClStatus c) (SpecImage c).
Proof.
  assert (Hp : ends_status (ClStatus c) (SpecImage c) (HandleUpgradeWorkflow ToJSON)).
  2: { apply (Hp (start_world c sts now faults)). cbn.
       split; [left; reflexivity|split; [left; reflexivity|reflexivity]]. }
  unfold HandleUpgradeWorkflow, dispatch, handleIdleState, handlePrecheckStartState,
    handlePrecheckDoneState, handleWaitingUserState, handleInProgressState,
    handleInProgressState_with, handleCancellation, updateUpgradeState,
    updateCurrentImages, StartPrechecks, StartRollingUpgrade, performRollingUpgrade,
    CheckUpgradeStatus_with, checkUpgradeProgress_with, performClusterHealthCheck.
  unfold mbind, M_bind, mret, M_ret.
  status_tac.
  all: try assumption.
  all: cbn [ClStatus SpecImage with_annotations]; assumption.
Qed.

(* ------------------------------------------------------------------ *)
(** ** Rollout status and the controller's [Reconcile] *)

(** With the operator's health probe (which always passes), the rolling
    upgrade status check reports done exactly when every group has
    converged, never returns an error, and records the five health-check
    events, HealthCheckPassed and RollingUpgradeCompleted only in the done
    case; otherwise it changes nothing. *)
Theorem CheckUpgradeStatus_converged w :
  CheckUpgradeStatus w
  = if all_converged w (w_cluster w) then
      ((true, None),
       with_events w [mkEvent Normal "HealthCheck"; mkEvent Normal "HealthCheck";
                      mkEvent Normal "HealthCheck"; mkEvent Normal "HealthCheck";
                      mkEvent Normal "HealthCheck"; mkEvent Normal "HealthCheckPassed";
                      mkEvent Normal "RollingUpgradeCompleted"])
    else ((false, None), w).
Proof.
  unfold CheckUpgradeStatus, CheckUpgradeStatus_with, checkUpgradeProgress_with.
  unfold mbind, M_bind, mret, M_ret, retM, bindM, get_cluster.
  cbn -[checkGroups all_converged]. rewrite checkGroups_eq. unfold all_converged.
  destruct (forallb (group_converged w (w_cluster w)) (MarkLogicGroups (w_cluster w))); cbn;
    [|reflexivity].
  unfold performClusterHealthCheck, emit, mbind, M_bind, mret, M_ret, retM, bindM.
  destruct w; unfold with_events; cbn. rewrite <- !app_assoc. reflexivity.
Qed.

(** [Reconcile] does not run the normal reconciliation when the upgrade
    workflow failed, asked for a requeue, or left the object in an active
    upgrade state (not empty, Idle or terminal): its outcome is then the
    same for every normal reconciler, and a workflow error is returned
    with an empty [Result]. *)
Theorem Reconcile_normal_gated ToJSON n1 n2 w :
  snd (fst (HandleUpgradeWorkflow ToJSON w)) <> None
  \/ Requeue (fst (fst (HandleUpgradeWorkflow ToJSON w))) = true
  \/ 0 < RequeueAfter (fst (fst (HandleUpgradeWorkflow ToJSON w)))
  \/ upgrade_active (ann_get (Annotations (w_cluster (snd (HandleUpgradeWorkflow ToJSON w))))
                       AnnotationUpgradeState) = true ->
  Reconcile ToJSON n1 w = Reconcile ToJSON n2 w /\
  (forall e, snd (fst (HandleUpgradeWorkflow ToJSON w)) = Some e ->
   fst (Reconcile ToJSON n1 w) = (Result0, Some e)).
Proof.
  unfold Reconcile, bindM.
  destruct (HandleUpgradeWorkflow ToJSON w) as [[r [e|]] w1]; cbn; intros H.
  - split; [reflexivity|]. intros e' [= ->]. reflexivity.
  - split; [|discriminate].
    unfold get_cluster.
    destruct (Requeue r) eqn:Er; cbn; [reflexivity|].
    destruct (Z.ltb_spec 0 (RequeueAfter r)); cbn; [reflexivity|].
    destruct H as [H|[H|[H|H]]]; [congruence|congruence|lia|].
    unfold upgrade_active, is_terminal in H.
    destruct (String.eqb _ ""), (String.eqb _ UpgradeStateIdle),
      (String.eqb _ UpgradeStateCompleted), (String.eqb _ UpgradeStateFailed),
      (String.eqb _ UpgradeStateCancelled); cbn in H |- *; try discriminate; reflexivity.
Qed.

Lemma Reconcile_normal_gated_witness :
  Reconcile sample_ToJSON normal_noop (start_world ex_waiting (sample_sts 3) 0 [])
  = Reconcile sample_ToJSON normal_failing (start_world ex_waiting (sample_sts 3) 0 []).
Proof.
  refine (proj1 (Reconcile_normal_gated sample_ToJSON normal_noop normal_failing
                   (start_world ex_waiting (sample_sts 3) 0 []) _)).
  right; right; left. vm_compute. reflexivity.
Defined.

Lemma is_terminal_cases (s : string) :
  is_terminal s = true ->
  s = UpgradeStateCompleted \/ s = UpgradeStateFailed \/ s = UpgradeStateCancelled.
Proof.
  unfold is_terminal. intros H.
  destruct (String.eqb_spec s UpgradeStateCompleted); [auto|].
  destruct (String.eqb_spec s UpgradeStateFailed); [auto|].
  destruct (String.eqb_spec s UpgradeStateCancelled); [auto|discriminate].
Qed.

(** From a terminal state with no cancel signal and writes succeeding,
    [Reconcile] resets the workflow's annotations to Idle (the committed
    status is left as it was) and then, in the same call, runs the normal
    reconciliation on the cleaned-up world and returns its outcome. *)
Theorem Reconcile_terminal_then_normal ToJSON c sts now (S : string) :
  ann_get (Annotations c) AnnotationUpgradeState = S -> is_terminal S = true ->
  is_true_str (ann_get (Annotations c) AnnotationCancelUpgrade) = false ->
  let w1 := snd (HandleUpgradeWorkflow ToJSON (start_world c sts now [])) in
  w_ann w1 = cleared_annotations UpgradeStateIdle (Annotations c) /\
  w_status w1 = ClStatus c /\
  forall normal,
    Reconcile ToJSON normal (start_world c sts now [])
    = (let '((r, e), w2) := normal w1 in
       match e with
       | Some e' => ((Result0, Some e'), w2)
       | None => ((r, None), w2)
       end).
Proof.
  intros HS HT Hc w1.
  assert (H : fst (HandleUpgradeWorkflow ToJSON (start_world c sts now [])) = (Result0, None) /\
              Annotations (w_cluster w1) = cleared_annotations UpgradeStateIdle (Annotations c) /\
              w_ann w1 = cleared_annotations UpgradeStateIdle (Annotations c) /\
              w_status w1 = ClStatus c).
  { subst w1. unfold HandleUpgradeWorkflow; unfold_monad; run_simpl.
    rewrite HS. destruct (is_terminal_cases S HT) as [E|[E|E]]; rewrite E; run_simpl; rewrite Hc;
      unfold dispatch, cleanupUpgradeAnnotations; unfold_monad; run_simpl;
      refine (conj eq_refl (conj eq_refl (conj eq_refl eq_refl))). }
  destruct H as (Hr & Hm & Ha & Hst).
  refine (conj Ha (conj Hst _)). intros normal.
  unfold Reconcile, bindM. subst w1.
  destruct (HandleUpgradeWorkflow ToJSON (start_world c sts now [])) as [[r e] w1].
  cbn in Hr, Hm |- *. injection Hr; intros -> ->. cbn.
  unfold get_cluster. rewrite Hm.
  unfold cleared_annotations, ann_get.
  rewrite !lookup_delete_ne by discriminate. rewrite lookup_insert_eq. cbn.
  destruct (normal w1) as [[r' [e'|]] w2]; reflexivity.
Qed.

Lemma Reconcile_terminal_then_normal_witness :
  w_ann (snd (HandleUpgradeWorkflow sample_ToJSON
                (start_world ex_completed_no_cancel (sample_sts 3) 0 [])))
  = cleared_annotations UpgradeStateIdle (Annotations ex_completed_no_cancel).
Proof.
  refine (proj1 (Reconcile_terminal_then_normal sample_ToJSON ex_completed_no_cancel
                   (sample_sts 3) 0 UpgradeStateCompleted _ _ _)); concrete.
Defined.

(** On a deployed Idle cluster with trigger=true and no cancel signal,
    [Reconcile] (writes succeeding) moves the workflow to PrecheckStarted
    and returns [Result{}] with no error and no requeue, without running
    the normal reconciliation. *)
Theorem Reconcile_trigger_skips_normal ToJSON c sts now :
  (ann_get (Annotations c) AnnotationUpgradeState = ""
   \/ ann_get (Annotations c) AnnotationUpgradeState = UpgradeStateIdle) ->
  isClusterDeployed c = true ->
  is_true_str (ann_get (Annotations c) AnnotationTriggerUpgrade) = true ->
  is_true_str (ann_get (Annotations c) AnnotationCancelUpgrade) = false ->
  let w1 := snd (HandleUpgradeWorkflow ToJSON (start_world c sts now [])) in
  w_ann w1 = <[AnnotationUpgradeState := UpgradeStatePrecheckStart]> (Annotations c) /\
  forall normal,
    Reconcile ToJSON normal (start_world c sts now []) = ((Result0, None), w1).
Proof.
  intros Hs Hd Ht Hc w1.
  assert (H : fst (HandleUpgradeWorkflow ToJSON (start_world c sts now [])) = (Result0, None) /\
              Annotations (w_cluster w1)
              = <[AnnotationUpgradeState := UpgradeStatePrecheckStart]> (Annotations c) /\
              w_ann w1 = <[AnnotationUpgradeState := UpgradeStatePrecheckStart]> (Annotations c)).
  { subst w1. unfold HandleUpgradeWorkflow; unfold_monad; run_simpl.
    assert (Hst : (if String.eqb (ann_get (Annotations c) AnnotationUpgradeState) ""
                   then UpgradeStateIdle else ann_get (Annotations c) AnnotationUpgradeState)
                  = UpgradeStateIdle).
    { destruct Hs as [E|E]; rewrite E; reflexivity. }
    rewrite Hst, Hd. run_simpl.
    destruct (detectImageChanges c); run_simpl;
      rewrite ?(trigger_insert_id _ Ht), Ht; run_simpl; rewrite Hc;
      unfold dispatch, handleIdleState; run_simpl; rewrite Ht;
      unfold StartPrechecks, updateUpgradeState, updateUpgradeStateWithResults;
      unfold_monad; run_simpl;
      refine (conj eq_refl (conj _ _));
      rewrite ?(trigger_insert_id _ Ht); reflexivity. }
  destruct H as (Hr & Hm & Ha).
  refine (conj Ha _). intros normal.
  unfold Reconcile, bindM. subst w1.
  destruct (HandleUpgradeWorkflow ToJSON (start_world c sts now [])) as [[r e] w1].
  cbn in Hr, Hm |- *. injection Hr; intros -> ->. cbn.
  unfold get_cluster. rewrite Hm, ann_get_insert_eq. reflexivity.
Qed.

Lemma Reconcile_trigger_skips_normal_witness :
  fst (Reconcile sample_ToJSON normal_failing (start_world ex_idle_trigger (sample_sts 3) 0 []))
  = (Result0, None).
Proof.
  rewrite (proj2 (Reconcile_trigger_skips_normal sample_ToJSON ex_idle_trigger (sample_sts 3) 0
                    ltac:(concrete) ltac:(concrete) ltac:(concrete) ltac:(concrete))).
  reflexivity.
Defined.
